(** * CFSpy documentation configuration ([docs/conf.py])

    A shallow embedding of the Sphinx / Jupyter-Book configuration module
    [docs/conf.py]: the Python values it declares, the evaluation of the
    module as a sequence of name bindings in the module namespace, and the
    [setup] hook that registers a stylesheet on the application handle. *)

From Stdlib Require Import ZArith List Ascii String Bool Lia.
From stdpp Require Import gmap strings list fin_maps.

Import ListNotations.
Set Warnings "-register-all".
Local Open Scope string_scope.
Local Open Scope Z_scope.
Local Open Scope list_scope.

(** ** Python values *)

(** The values that occur in the module: [None], booleans, integers,
    strings, list displays, dict displays (insertion ordered, keyed by the
    string literals the source uses) and function objects, which are
    identified by the name of their [def]. *)
Inductive pyvalue : Type :=
| PyNone
| PyBool (b : bool)
| PyInt (n : Z)
| PyStr (s : string)
| PyList (items : list pyvalue)
| PyDict (items : list (string * pyvalue))
| PyFunction (qualname : string).

(** [d[k] = v] on an insertion-ordered dict: an existing key keeps its
    position and takes the new value, a new key goes to the end. *)
Fixpoint dict_setitem (k : string) (v : pyvalue)
  (items : list (string * pyvalue)) : list (string * pyvalue) :=
  match items with
  | [] => [(k, v)]
  | (k', v') :: rest =>
      if String.eqb k k' then (k, v) :: rest
      else (k', v') :: dict_setitem k v rest
  end.

(** A dict display [{k1: v1, ..., kn: vn}]: the items are stored left to
    right, a repeated key keeping the last value. *)
Definition dict_display (kvs : list (string * pyvalue)) : pyvalue :=
  PyDict (fold_left (fun d kv => dict_setitem (fst kv) (snd kv) d) kvs []).

Fixpoint assoc_get (k : string) (items : list (string * pyvalue))
  : option pyvalue :=
  match items with
  | [] => None
  | (k', v) :: rest => if String.eqb k k' then Some v else assoc_get k rest
  end.

(** [d.get(k)] *)
Definition dict_get (k : string) (d : pyvalue) : option pyvalue :=
  match d with
  | PyDict items => assoc_get k items
  | _ => None
  end.

(** [list(d.keys())] *)
Definition dict_keys (d : pyvalue) : list string :=
  match d with
  | PyDict items => map fst items
  | _ => []
  end.

Definition list_items (v : pyvalue) : list pyvalue :=
  match v with
  | PyList items => items
  | _ => []
  end.

(** [type(v) is bool], [type(v) is int] *)
Definition is_bool (v : pyvalue) : bool :=
  match v with PyBool _ => true | _ => false end.

Definition is_int (v : pyvalue) : bool :=
  match v with PyInt _ => true | _ => false end.

(** ** Evaluation: state and exceptions *)

Inductive exn : Type :=
| NameError (name : string)
| AttributeError (attr : string).

Inductive result (R : Type) : Type :=
| Ok (r : R)
| Raise (e : exn).
Arguments Ok {R} r.
Arguments Raise {R} e.

(** A computation over a state [S] that returns a value or raises. *)
Definition exec (S R : Type) : Type := S -> result (R * S).

Definition ret {S R : Type} (r : R) : exec S R := fun s => Ok (r, s).

Definition bind {S R R' : Type} (c : exec S R) (k : R -> exec S R')
  : exec S R' :=
  fun s =>
    match c s with
    | Ok (r, s') => k r s'
    | Raise e => Raise e
    end.

Declare Scope exec_scope.
Delimit Scope exec_scope with exec.
Notation "x <- c ;; k" := (bind c (fun x => k))
  (at level 100, c at next level, right associativity) : exec_scope.
Notation "c ;; k" := (bind c (fun _ => k))
  (at level 100, right associativity) : exec_scope.

(** A binding of a name in the module namespace, as evaluation performs it. *)
Inductive event : Type :=
| Bind (name : string) (value : pyvalue).

Definition event_name (e : event) : string :=
  match e with Bind name _ => name end.

(** The state of a module under evaluation: its namespace (the module's
    [__dict__]) and the bindings performed so far, oldest first. *)
Record frame : Type := Frame {
  bindings : gmap string pyvalue;
  trace : list event
}.

(** [name = value] at module level. *)
Definition assign (name : string) (value : pyvalue) : exec frame unit :=
  fun st =>
    Ok (tt, {| bindings := <[name := value]> (bindings st);
               trace := trace st ++ [Bind name value] |}).

(** [def name(...): ...] at module level: the name is bound to the function
    object; the body is not run. *)
Definition def_function (name : string) : exec frame unit :=
  assign name (PyFunction name).

(** How often evaluation bound [name]. *)
Definition times_bound (name : string) (tr : list event) : nat :=
  List.length (List.filter (fun e => String.eqb (event_name e) name) tr).

(** ** The values [conf.py] declares *)

Definition extensions : pyvalue :=
  PyList [
    PyStr "sphinx.ext.autodoc";
    PyStr "sphinx.ext.napoleon";
    PyStr "sphinx.ext.mathjax";
    PyStr "sphinx.ext.viewcode";
    PyStr "sphinx.ext.graphviz";
    PyStr "sphinxcontrib.mermaid"
  ].

Definition html_theme_options : pyvalue :=
  dict_display [
    ("use_download_button", PyBool true);
    ("navigation_depth", PyInt 4)
  ].

Definition nitpicky : pyvalue := PyBool false.

(** The line feed of the triple-quoted literal. *)
Definition LF : string := String "010"%char EmptyString.

Definition rst_epilog_text : string :=
  LF +:+ ".. |project| replace:: CFSpy" +:+ LF.

Definition rst_epilog : pyvalue := PyStr rst_epilog_text.

(** The module body, statement by statement. *)
Definition conf_py : exec frame unit :=
  (assign "extensions" extensions ;;
   def_function "setup" ;;
   assign "html_theme_options" html_theme_options ;;
   assign "nitpicky" nitpicky ;;
   assign "rst_epilog" rst_epilog)%exec.

(** ** The application handle and the [setup] hook *)

(** The part of the external engine's application object the module uses:
    the handle offers [app.add_css_file(filename)] and
    [app.add_js_file(filename)], each a change of the handle's state. *)
Class AppHandle (A : Type) : Type := {
  add_css_file : string -> A -> A;
  add_js_file : string -> A -> A
}.

(** What a call of [setup] can reach: the module's globals and the handle
    it is given. *)
Record world (A : Type) : Type := World {
  globals : gmap string pyvalue;
  app : A
}.
Arguments World {A} globals app.
Arguments globals {A} w.
Arguments app {A} w.

(** A method call on [app] as an expression statement: the handle changes,
    the call's value ([None]) is dropped by the caller. *)
Definition call_method {A : Type} (m : A -> A) : exec (world A) pyvalue :=
  fun w => Ok (PyNone, {| globals := globals w; app := m (app w) |}).

(** [def setup(app)]: one stylesheet registration; the [add_js_file] line of
    the source is a comment. The body has no [return], so the call yields
    [None]. *)
Definition setup {A : Type} `{AppHandle A} : exec (world A) pyvalue :=
  (call_method (add_css_file "assets/css/custom.css") ;;
   ret PyNone)%exec.

(** Method calls received by a handle. *)
Inductive call : Type :=
| AddCssFile (filename : string)
| AddJsFile (filename : string).

Definition is_css_call (c : call) : bool :=
  match c with AddCssFile _ => true | AddJsFile _ => false end.

Definition is_js_call (c : call) : bool :=
  match c with AddCssFile _ => false | AddJsFile _ => true end.

(** The handle that only records the calls it receives, oldest first. *)
#[global] Instance call_log : AppHandle (list call) := {|
  add_css_file f log := log ++ [AddCssFile f];
  add_js_file f log := log ++ [AddJsFile f]
|}.

(** Performing recorded calls on a handle. *)
Definition perform {A : Type} `{AppHandle A} (c : call) (a : A) : A :=
  match c with
  | AddCssFile f => add_css_file f a
  | AddJsFile f => add_js_file f a
  end.

Definition replay {A : Type} `{AppHandle A} (cs : list call) (a : A) : A :=
  fold_left (fun a c => perform c a) cs a.

(** The calls [setup] makes, read off the recording handle. *)
Definition setup_calls (g : gmap string pyvalue) : list call :=
  match setup (World g []) with
  | Ok (_, w) => app w
  | Raise _ => []
  end.

(** The contract of the external engine's asset registry: a handle lists
    the stylesheets and scripts registered so far, and a registration
    appends its file to the list of its kind and leaves the other list as
    it is. *)
Class AssetRegistry (A : Type) `{AppHandle A} : Type := {
  css_files : A -> list string;
  js_files : A -> list string;
  css_files_add_css_file :
    forall f a, css_files (add_css_file f a) = css_files a ++ [f];
  js_files_add_css_file :
    forall f a, js_files (add_css_file f a) = js_files a;
  css_files_add_js_file :
    forall f a, css_files (add_js_file f a) = css_files a;
  js_files_add_js_file :
    forall f a, js_files (add_js_file f a) = js_files a ++ [f]
}.

(** A handle with the two asset lists of the engine's registry and the
    name of the active theme, which registration does not touch. *)
Record Sphinx : Type := {
  registry_css_files : list string;
  registry_js_files : list string;
  html_theme : string
}.

#[global] Instance Sphinx_handle : AppHandle Sphinx := {|
  add_css_file f a :=
    {| registry_css_files := registry_css_files a ++ [f];
       registry_js_files := registry_js_files a;
       html_theme := html_theme a |};
  add_js_file f a :=
    {| registry_css_files := registry_css_files a;
       registry_js_files := registry_js_files a ++ [f];
       html_theme := html_theme a |}
|}.

#[global] Instance Sphinx_registry : AssetRegistry Sphinx := {|
  css_files := registry_css_files;
  js_files := registry_js_files;
  css_files_add_css_file := fun _ _ => eq_refl;
  js_files_add_css_file := fun _ _ => eq_refl;
  css_files_add_js_file := fun _ _ => eq_refl;
  js_files_add_js_file := fun _ _ => eq_refl
|}.

(** The recording handle read as a registry: the files of the calls of
    each kind, oldest first. *)
Definition css_of_call (c : call) : option string :=
  match c with AddCssFile f => Some f | AddJsFile _ => None end.

Definition js_of_call (c : call) : option string :=
  match c with AddCssFile _ => None | AddJsFile f => Some f end.

Definition logged_css (log : list call) : list string := omap css_of_call log.

Definition logged_js (log : list call) : list string := omap js_of_call log.

#[global] Instance call_log_registry : AssetRegistry (list call) := {|
  css_files := logged_css;
  js_files := logged_js;
  css_files_add_css_file := fun f a => omap_app css_of_call a [AddCssFile f];
  js_files_add_css_file := fun f a =>
    eq_trans (omap_app js_of_call a [AddCssFile f])
      (app_nil_r (omap js_of_call a));
  css_files_add_js_file := fun f a =>
    eq_trans (omap_app css_of_call a [AddJsFile f])
      (app_nil_r (omap css_of_call a));
  js_files_add_js_file := fun f a => omap_app js_of_call a [AddJsFile f]
|}.

(** A build whose theme has already registered its own assets. *)
Definition themed_app : Sphinx :=
  {| registry_css_files := ["styles/sphinx-book-theme.css"; "pygments.css"];
     registry_js_files := ["scripts/sphinx-book-theme.js"];
     html_theme := "sphinx_book_theme" |}.

(** ** The epilog's substitution definitions *)

(** The lines of a text, split at line feeds. *)
Fixpoint lines (s : string) : list string :=
  match s with
  | EmptyString => [EmptyString]
  | String c s' =>
      if Ascii.eqb c "010"%char then EmptyString :: lines s'
      else match lines s' with
           | l :: ls => String c l :: ls
           | [] => [String c EmptyString]
           end
  end.

(** [s] without its prefix [p], when it starts with [p]. *)
Fixpoint strip_prefix (p s : string) : option string :=
  match p with
  | EmptyString => Some s
  | String a p' =>
      match s with
      | EmptyString => None
      | String b s' => if Ascii.eqb a b then strip_prefix p' s' else None
      end
  end.

(** [s] split at its first vertical bar. *)
Fixpoint split_at_bar (s : string) : option (string * string) :=
  match s with
  | EmptyString => None
  | String c s' =>
      if Ascii.eqb c "|"%char then Some (EmptyString, s')
      else match split_at_bar s' with
           | Some (name, rest) => Some (String c name, rest)
           | None => None
           end
  end.

(** Modelled from the spec: the external engine's reading of one epilog
    line as a substitution definition; the engine is not part of the
    repository. A definition has the form [.. |name| replace:: text] and
    maps the symbolic name to the replacement text. *)
Definition substitution_definition (line : string)
  : option (string * string) :=
  match strip_prefix ".. |" line with
  | Some rest =>
      match split_at_bar rest with
      | Some (name, rest') =>
          match strip_prefix " replace:: " rest' with
          | Some text => Some (name, text)
          | None => None
          end
      | None => None
      end
  | None => None
  end.

(** Modelled from the spec: the substitution table of an epilog, symbolic
    name to replacement text, one rule per definition line. *)
Definition substitution_table (epilog : string) : list (string * string) :=
  omap substitution_definition (lines epilog).

(** The token that references a substitution in source text. *)
Definition reference (name : string) : string := "|" +:+ name +:+ "|".

(** [s.startswith(p)] *)
Fixpoint starts_with (p s : string) : bool :=
  match p with
  | EmptyString => true
  | String a p' =>
      match s with
      | EmptyString => false
      | String b s' => Ascii.eqb a b && starts_with p' s'
      end
  end.

(** Textual replacement of [tok] by [rep], left to right; [skip] counts the
    characters of a replaced token still to be passed over. *)
Fixpoint replace_from (tok rep : string) (skip : nat) (s : string) : string :=
  match s with
  | EmptyString => EmptyString
  | String c s' =>
      match skip with
      | S k => replace_from tok rep k s'
      | O =>
          if starts_with tok s
          then rep +:+ replace_from tok rep (String.length tok - 1)%nat s'
          else String c (replace_from tok rep 0 s')
      end
  end.

Definition replace_all (tok rep s : string) : string :=
  match tok with
  | EmptyString => s
  | String _ _ => replace_from tok rep 0 s
  end.

(** Modelled from the spec: the external engine's rendering of a source
    text under a substitution table, by simple textual substitution
    wherever a symbolic name is referenced. *)
Definition apply_substitutions (table : list (string * string))
  (text : string) : string :=
  fold_left (fun t rule => replace_all (reference (fst rule)) (snd rule) t)
    table text.

(** Rendering a source text under the module's epilog. *)
Definition render (epilog : pyvalue) (text : string) : string :=
  match epilog with
  | PyStr e => apply_substitutions (substitution_table e) text
  | _ => text
  end.

(** [c in s] for a character. *)
Fixpoint mem_char (c : ascii) (s : string) : bool :=
  match s with
  | EmptyString => false
  | String a s' => Ascii.eqb a c || mem_char c s'
  end.

(** [tok] occurs in [s]. *)
Definition occurs (tok s : string) : Prop :=
  exists pre post, s = pre +:+ tok +:+ post.

(** The names the module binds, in source order. *)
Definition declared_names : list string :=
  ["extensions"; "setup"; "html_theme_options"; "nitpicky"; "rst_epilog"].

(** The declared configuration entities (the bound names other than the
    hook). *)
Definition entity_names : list string :=
  ["extensions"; "html_theme_options"; "nitpicky"; "rst_epilog"].


(** [setup] called [n] times in a row on the same handle. *)
Fixpoint setup_times {A : Type} `{AppHandle A} (n : nat)
  : exec (world A) pyvalue :=
  match n with
  | O => ret PyNone
  | S n' => (setup ;; setup_times n')%exec
  end.


(** ** Evaluation of the module *)

Lemma assign_ok (name : string) (value : pyvalue) (st : frame) :
  assign name value st =
    Ok (tt, {| bindings := <[name := value]> (bindings st);
               trace := trace st ++ [Bind name value] |}).
Proof. reflexivity. Qed.

(** One run of the module from any state: five bindings, in source order. *)
Lemma conf_py_run (st : frame) :
  conf_py st =
    Ok (tt,
        {| bindings :=
             <["rst_epilog" := rst_epilog]>
               (<["nitpicky" := nitpicky]>
                  (<["html_theme_options" := html_theme_options]>
                     (<["setup" := PyFunction "setup"]>
                        (<["extensions" := extensions]> (bindings st)))));
           trace :=
             trace st ++
               [Bind "extensions" extensions;
                Bind "setup" (PyFunction "setup");
                Bind "html_theme_options" html_theme_options;
                Bind "nitpicky" nitpicky;
                Bind "rst_epilog" rst_epilog] |}).
Proof.
  unfold conf_py, def_function, bind; rewrite !assign_ok; cbn [bindings trace].
  rewrite <- !app_assoc; reflexivity.
Qed.

Lemma html_theme_options_items :
  html_theme_options =
    PyDict [("use_download_button", PyBool true); ("navigation_depth", PyInt 4)].
Proof. reflexivity. Qed.

Ltac lookup_bound :=
  cbn [bindings]; simplify_map_eq; reflexivity.

Example dict_display_repeated_key :
  dict_display [("a", PyInt 1); ("b", PyInt 2); ("a", PyInt 3)] =
  PyDict [("a", PyInt 3); ("b", PyInt 2)].
Proof. reflexivity. Qed.

Example conf_py_from_empty_namespace :
  exists st', conf_py (Frame ∅ []) = Ok (tt, st')
    /\ dom (bindings st') = list_to_set declared_names
    /\ map event_name (trace st') = declared_names.
Proof.
  eexists; split; [apply conf_py_run|]; split; [|reflexivity].
  cbn [bindings]; rewrite !dom_insert_L, dom_empty_L.
  unfold declared_names; cbn; set_solver.
Qed.

(** ** The declared values *)

(** C1: evaluating the module binds [extensions] to an ordered list of
    exactly six extension identifier strings: sphinx.ext.autodoc,
    sphinx.ext.napoleon, sphinx.ext.mathjax, sphinx.ext.viewcode,
    sphinx.ext.graphviz and sphinxcontrib.mermaid, in that order. *)
Theorem extensions_registry (st : frame) :
  exists st' v,
    conf_py st = Ok (tt, st')
    /\ bindings st' !! "extensions" = Some v
    /\ v = PyList [PyStr "sphinx.ext.autodoc";
                   PyStr "sphinx.ext.napoleon";
                   PyStr "sphinx.ext.mathjax";
                   PyStr "sphinx.ext.viewcode";
                   PyStr "sphinx.ext.graphviz";
                   PyStr "sphinxcontrib.mermaid"]
    /\ List.length (list_items v) = 6%nat.
Proof.
  eexists _, _; split; [apply conf_py_run|].
  split; [lookup_bound|]. split; reflexivity.
Qed.

(** C3: the theme option overlay declares exactly two keys:
    [use_download_button], bound to the boolean [True], and
    [navigation_depth], bound to the positive integer 4; no other key is
    present. *)
Theorem html_theme_options_two_keys (st : frame) :
  exists st' d,
    conf_py st = Ok (tt, st')
    /\ bindings st' !! "html_theme_options" = Some d
    /\ dict_keys d = ["use_download_button"; "navigation_depth"]
    /\ (exists flag, dict_get "use_download_button" d = Some flag
                     /\ is_bool flag = true /\ flag = PyBool true)
    /\ (exists depth n, dict_get "navigation_depth" d = Some depth
                        /\ is_int depth = true /\ depth = PyInt n
                        /\ n = 4 /\ 0 < n)
    /\ (forall k, k <> "use_download_button" -> k <> "navigation_depth" ->
                  dict_get k d = None).
Proof.
  eexists _, _; split; [apply conf_py_run|].
  split; [lookup_bound|]. rewrite html_theme_options_items.
  split; [reflexivity|].
  split; [eexists; repeat split; reflexivity|].
  split; [exists (PyInt 4), 4; repeat split; lia|].
  intros k Hd Hn; cbn [dict_get assoc_get].
  apply String.eqb_neq in Hd, Hn. rewrite Hd, Hn. reflexivity.
Qed.

(** The overlay does not set the theme's [home_page_in_toc] option. *)
Lemma html_theme_options_two_keys_other_key :
  exists st' d,
    conf_py (Frame ∅ []) = Ok (tt, st')
    /\ bindings st' !! "html_theme_options" = Some d
    /\ dict_get "home_page_in_toc" d = None.
Proof.
  destruct (html_theme_options_two_keys (Frame ∅ []))
    as (st' & d & Hrun & Hd & _ & _ & _ & Hother).
  exists st', d. split; [exact Hrun|]. split; [exact Hd|].
  apply Hother; discriminate.
Defined.

(** C4: the strictness flag [nitpicky] is declared as a boolean and its
    declared value is [False]. *)
Theorem nitpicky_is_false (st : frame) :
  exists st' v,
    conf_py st = Ok (tt, st')
    /\ bindings st' !! "nitpicky" = Some v
    /\ is_bool v = true
    /\ v = PyBool false.
Proof.
  eexists _, _; split; [apply conf_py_run|].
  split; [lookup_bound|]. split; reflexivity.
Qed.

(** C9: the declared extension list has no duplicate identifier: its six
    items are strings, pairwise distinct and non-empty. *)
Theorem extensions_distinct_nonempty (st : frame) :
  exists st' v,
    conf_py st = Ok (tt, st')
    /\ bindings st' !! "extensions" = Some v
    /\ List.length (list_items v) = 6%nat
    /\ NoDup (list_items v)
    /\ Forall (fun item => exists s, item = PyStr s /\ s <> EmptyString) (list_items v).
Proof.
  eexists _, _; split; [apply conf_py_run|].
  split; [lookup_bound|]. split; [reflexivity|].
  cbn [list_items extensions]; split.
  - repeat (apply NoDup_cons_2;
            [rewrite ?elem_of_cons, elem_of_nil; intuition congruence|]).
    apply NoDup_nil_2.
  - repeat (apply Forall_cons_2;
            [eexists; split; [reflexivity|discriminate]|]).
    apply Forall_nil_2.
Qed.

(** C6: evaluating the module never raises and takes no branch: from every
    state it succeeds and performs the same five bindings in source order,
    and a binding succeeds whatever value it is given (no value is
    validated). *)
Theorem conf_py_never_raises :
  (forall st, exists st',
      conf_py st = Ok (tt, st')
      /\ trace st' =
           trace st ++
             [Bind "extensions" extensions;
              Bind "setup" (PyFunction "setup");
              Bind "html_theme_options" html_theme_options;
              Bind "nitpicky" nitpicky;
              Bind "rst_epilog" rst_epilog])
  /\ (forall st e, conf_py st <> Raise e)
  /\ (forall name value st, exists st',
         assign name value st = Ok (tt, st')
         /\ bindings st' !! name = Some value).
Proof.
  split; [|split].
  - intros st; eexists; split; [apply conf_py_run|reflexivity].
  - intros st e; rewrite conf_py_run; discriminate.
  - intros name value st; eexists; split; [apply assign_ok|].
    cbn [bindings]; apply lookup_insert_eq.
Qed.

(** ** The [setup] hook *)

Section Setup.
Context {A : Type} `{AppHandle A}.

(** A call of [setup] is one [add_css_file] on the handle; the globals are
    handed back as they were and the value is [None]. *)
Lemma setup_run (g : gmap string pyvalue) (a : A) :
  setup (World g a) =
    Ok (PyNone, World g (add_css_file "assets/css/custom.css" a)).
Proof. reflexivity. Qed.

Lemma setup_calls_run (g : gmap string pyvalue) :
  setup_calls g = [AddCssFile "assets/css/custom.css"].
Proof. reflexivity. Qed.

Lemma replay_setup_calls (g : gmap string pyvalue) (a : A) :
  replay (setup_calls g) a = add_css_file "assets/css/custom.css" a.
Proof. rewrite setup_calls_run; reflexivity. Qed.

End Setup.

(** Registering a stylesheet keeps what a registry already lists. *)
Lemma add_css_file_keeps {A : Type} `{AssetRegistry A} (f : string) (a : A) :
  css_files a `prefix_of` css_files (add_css_file f a)
  /\ js_files (add_css_file f a) = js_files a.
Proof.
  rewrite css_files_add_css_file, js_files_add_css_file.
  split; [apply prefix_app_r; reflexivity|reflexivity].
Qed.

(** C2: for every application handle, a call of [setup] makes exactly one
    call on the handle, an [add_css_file]; it returns [None] and changes
    nothing else (the globals are as before). On a handle whose registry
    appends on registration, every asset registered before is still
    registered, in its place, and the new stylesheet is the only
    addition. *)
Theorem setup_registers_one_stylesheet
  (A : Type) (HA : AppHandle A) (g : gmap string pyvalue) (a : A) :
  exists a',
    setup (World g a) = Ok (PyNone, World g a')
    /\ a' = replay (setup_calls g) a
    /\ List.length (setup_calls g) = 1%nat
    /\ List.length (List.filter is_css_call (setup_calls g)) = 1%nat
    /\ (forall R : AssetRegistry A,
          css_files a' = css_files a ++ ["assets/css/custom.css"]
          /\ js_files a' = js_files a
          /\ css_files a `prefix_of` css_files a'
          /\ (forall f, f ∈ css_files a -> f ∈ css_files a')
          /\ List.length (css_files a') = S (List.length (css_files a))).
Proof.
  exists (add_css_file "assets/css/custom.css" a).
  split; [apply setup_run|]. split; [symmetry; apply replay_setup_calls|].
  split; [reflexivity|]. split; [reflexivity|].
  intros R. destruct (add_css_file_keeps "assets/css/custom.css" a) as [Hp Hj].
  rewrite css_files_add_css_file in *.
  split; [reflexivity|]. split; [exact Hj|]. split; [exact Hp|].
  split.
  - intros f Hf. apply elem_of_app; left; exact Hf.
  - rewrite length_app; cbn; lia.
Qed.

(** [setup] on a build whose theme has registered its assets. *)
Lemma setup_registers_one_stylesheet_themed :
  exists a',
    setup (World ∅ themed_app) = Ok (PyNone, World ∅ a')
    /\ css_files a' =
         ["styles/sphinx-book-theme.css"; "pygments.css";
          "assets/css/custom.css"]
    /\ js_files a' = ["scripts/sphinx-book-theme.js"].
Proof.
  destruct (setup_registers_one_stylesheet Sphinx _ ∅ themed_app)
    as (a' & Hrun & _ & _ & _ & HR).
  destruct (HR _) as (Hc & Hj & _).
  exists a'. split; [exact Hrun|]. split; [exact Hc|exact Hj].
Defined.

(** C8: the single asset [setup] registers is the stylesheet
    assets/css/custom.css; it makes no [add_js_file] call, so the only
    kind of asset it adds is CSS and a registry's scripts stay as they
    were. *)
Theorem setup_registers_custom_css_only
  (A : Type) (HA : AppHandle A) (g : gmap string pyvalue) (a : A) :
  setup_calls g = [AddCssFile "assets/css/custom.css"]
  /\ List.filter is_js_call (setup_calls g) = []
  /\ Forall (fun c => is_css_call c = true) (setup_calls g)
  /\ setup (World g a) =
       Ok (PyNone, World g (add_css_file "assets/css/custom.css" a))
  /\ (forall R : AssetRegistry A,
      forall w, setup (World g a) = Ok (PyNone, w) ->
        js_files (app w) = js_files a
        /\ css_files (app w) = css_files a ++ ["assets/css/custom.css"]).
Proof.
  split; [reflexivity|]. split; [reflexivity|].
  split; [repeat constructor|]. split; [apply setup_run|].
  intros R w Hw. rewrite setup_run in Hw. injection Hw as <-.
  cbn [app]. split; [apply js_files_add_css_file|apply css_files_add_css_file].
Qed.

(** [setup] on the themed build adds one stylesheet and no script. *)
Lemma setup_registers_custom_css_only_themed :
  List.filter is_js_call (setup_calls ∅) = []
  /\ js_files (add_css_file "assets/css/custom.css" themed_app) =
       ["scripts/sphinx-book-theme.js"]
  /\ css_files (add_css_file "assets/css/custom.css" themed_app) =
       ["styles/sphinx-book-theme.css"; "pygments.css";
        "assets/css/custom.css"].
Proof.
  destruct (setup_registers_custom_css_only Sphinx _ ∅ themed_app)
    as (_ & Hjs & _ & Hrun & HR).
  destruct (HR _ _ Hrun) as [Hj Hc].
  split; [exact Hjs|]. split; [exact Hj|exact Hc].
Defined.

(** ** Lifecycle of the declared values *)

(** C7: every configuration entity (extension list, theme options,
    strictness flag, epilog text) is bound exactly once by an evaluation
    and keeps the value it was bound to until evaluation ends; a call of
    [setup] hands the module's globals back unchanged, whatever the
    handle. *)
Theorem entities_assigned_once (st : frame) :
  exists st' performed,
    conf_py st = Ok (tt, st')
    /\ trace st' = trace st ++ performed
    /\ Forall (fun name => times_bound name performed = 1%nat) entity_names
    /\ (forall name value,
          In (Bind name value) performed -> bindings st' !! name = Some value)
    /\ (forall (A : Type) (HA : AppHandle A) (g : gmap string pyvalue) (a : A),
          exists a', setup (World g a) = Ok (PyNone, World g a')).
Proof.
  eexists _, _; split; [apply conf_py_run|].
  split; [reflexivity|]. split; [repeat constructor|]. split.
  - intros name value Hin. cbn [In] in Hin.
    repeat (destruct Hin as [Heq|Hin];
            [injection Heq as <- <-; lookup_bound|]).
    contradiction.
  - intros A HA g a; eexists; apply setup_run.
Qed.

(** An evaluation in a namespace that already binds [nitpicky]. *)
Lemma entities_assigned_once_rebound :
  exists st',
    conf_py (Frame {["nitpicky" := PyBool true]} [Bind "nitpicky" (PyBool true)])
      = Ok (tt, st')
    /\ bindings st' !! "nitpicky" = Some (PyBool false).
Proof.
  destruct (entities_assigned_once
              (Frame {["nitpicky" := PyBool true]} [Bind "nitpicky" (PyBool true)]))
    as (st' & performed & Hrun & Htr & _ & Hkeep & _).
  exists st'. split; [exact Hrun|]. apply Hkeep.
  rewrite conf_py_run in Hrun. injection Hrun as <-.
  cbn [trace app] in Htr. injection Htr as <-.
  cbn [In nitpicky]; tauto.
Defined.

(** C10: evaluation is deterministic: any two evaluations, from whatever
    states, bind every declared name to the same value; and [setup] makes
    the same single call whatever the globals, so two handles whose
    registries list the same assets list the same assets afterwards, the
    same one stylesheet added to each, and equal handles stay equal. *)
Theorem evaluation_deterministic :
  (forall st1 st2, exists st1' st2',
      conf_py st1 = Ok (tt, st1') /\ conf_py st2 = Ok (tt, st2')
      /\ Forall (fun name => is_Some (bindings st1' !! name)
                             /\ bindings st1' !! name = bindings st2' !! name)
           declared_names)
  /\ (forall g1 g2, setup_calls g1 = setup_calls g2)
  /\ (forall (A B : Type) (HA : AppHandle A) (HB : AppHandle B)
             (RA : AssetRegistry A) (RB : AssetRegistry B)
             (g1 g2 : gmap string pyvalue) (a : A) (b : B),
        css_files a = css_files b -> js_files a = js_files b ->
        exists a' b',
          setup (World g1 a) = Ok (PyNone, World g1 a')
          /\ setup (World g2 b) = Ok (PyNone, World g2 b')
          /\ css_files a' = css_files a ++ ["assets/css/custom.css"]
          /\ css_files b' = css_files b ++ ["assets/css/custom.css"]
          /\ css_files a' = css_files b'
          /\ js_files a' = js_files b')
  /\ (forall (A : Type) (HA : AppHandle A) (g : gmap string pyvalue)
             (a1 a2 : A),
        a1 = a2 -> setup (World g a1) = setup (World g a2)).
Proof.
  split; [|split; [|split]].
  - intros st1 st2; eexists _, _.
    split; [apply conf_py_run|]. split; [apply conf_py_run|].
    cbn [bindings]; repeat constructor; simplify_map_eq; eauto.
  - intros g1 g2; rewrite !setup_calls_run; reflexivity.
  - intros A B HA HB RA RB g1 g2 a b Hc Hj; eexists _, _.
    split; [apply setup_run|]. split; [apply setup_run|].
    rewrite !css_files_add_css_file, !js_files_add_css_file, Hc, Hj.
    repeat split; reflexivity.
  - intros A HA g a1 a2 ->; reflexivity.
Qed.

(** The themed build and a recording handle that has seen the same
    registrations end with the same registry. *)
Lemma evaluation_deterministic_themed_vs_log :
  exists (a' : Sphinx) (b' : list call),
    setup (World ∅ themed_app) = Ok (PyNone, World ∅ a')
    /\ setup (World {["nitpicky" := PyBool true]}
                [AddCssFile "styles/sphinx-book-theme.css";
                 AddJsFile "scripts/sphinx-book-theme.js";
                 AddCssFile "pygments.css"])
         = Ok (PyNone, World {["nitpicky" := PyBool true]} b')
    /\ css_files a' = css_files b'
    /\ js_files a' = js_files b'.
Proof.
  destruct evaluation_deterministic as (_ & _ & Hsetup & _).
  destruct (Hsetup Sphinx (list call) _ _ _ _ ∅ {["nitpicky" := PyBool true]}
              themed_app
              [AddCssFile "styles/sphinx-book-theme.css";
               AddJsFile "scripts/sphinx-book-theme.js";
               AddCssFile "pygments.css"])
    as (a' & b' & Ha & Hb & _ & _ & Hc & Hj); [reflexivity|reflexivity|].
  exists a', b'. repeat split; assumption.
Defined.

(** ** Textual substitution *)

Lemma append_nil_l (s : string) : EmptyString +:+ s = s.
Proof. reflexivity. Qed.

Lemma append_cons (a : ascii) (s t : string) :
  String a s +:+ t = String a (s +:+ t).
Proof. reflexivity. Qed.

Ltac unfold_append := rewrite ?append_cons, ?append_nil_l.

Lemma prefix_cons (a b : ascii) (t s : string) :
  starts_with (String a t) (String b s) = true <->
  a = b /\ starts_with t s = true.
Proof.
  cbn [starts_with]. rewrite andb_true_iff, Ascii.eqb_eq. reflexivity.
Qed.

Lemma prefix_append (t post : string) : starts_with t (t +:+ post) = true.
Proof.
  induction t as [|a t IH]; [reflexivity|].
  unfold_append. apply prefix_cons; auto.
Qed.

Lemma prefix_split (t s : string) :
  starts_with t s = true -> exists post, s = t +:+ post.
Proof.
  revert s; induction t as [|a t IH]; intros s Hp.
  - exists s; reflexivity.
  - destruct s as [|b s]; [discriminate|].
    apply prefix_cons in Hp as [-> Hp].
    destruct (IH _ Hp) as [post ->]. exists post; reflexivity.
Qed.

(** An occurrence starts at the head of the text or further on. *)
Lemma occurs_cons (tok : string) (c : ascii) (s : string) :
  occurs tok (String c s) ->
  starts_with tok (String c s) = true \/ occurs tok s.
Proof.
  intros (pre & post & Heq). destruct pre as [|a pre].
  - left. rewrite append_nil_l in Heq. rewrite Heq. apply prefix_append.
  - right. rewrite append_cons in Heq. injection Heq as _ ->.
    exists pre, post; reflexivity.
Qed.

Lemma occurs_prefix (tok s : string) :
  starts_with tok s = true -> occurs tok s.
Proof.
  intros Hp. destruct (prefix_split _ _ Hp) as [post ->].
  exists EmptyString, post; reflexivity.
Qed.

Lemma occurs_tail (tok : string) (c : ascii) (s : string) :
  occurs tok s -> occurs tok (String c s).
Proof.
  intros (pre & post & ->). exists (String c pre), post; reflexivity.
Qed.

Section Replace.
Variables tok rep : string.

Lemma replace_from_skip (t post : string) :
  replace_from tok rep (String.length t) (t +:+ post) =
  replace_from tok rep 0 post.
Proof.
  induction t as [|a t IH]; [reflexivity|].
  rewrite append_cons. cbn [String.length replace_from]. exact IH.
Qed.

(** A reference at the head of the text is replaced by [rep]. *)
Lemma replace_from_match (post : string) :
  tok <> EmptyString ->
  replace_from tok rep 0 (tok +:+ post) =
  rep +:+ replace_from tok rep 0 post.
Proof.
  intros Hne. destruct tok as [|a t] eqn:Etok; [contradiction|].
  rewrite append_cons. cbn [replace_from].
  rewrite <- append_cons, prefix_append. cbn [String.length].
  rewrite Nat.sub_1_r; cbn [Nat.pred]. rewrite <- Etok.
  f_equal. apply replace_from_skip.
Qed.

(** A character that starts no reference is kept. *)
Lemma replace_from_keep (c : ascii) (s : string) :
  starts_with tok (String c s) = false ->
  replace_from tok rep 0 (String c s) = String c (replace_from tok rep 0 s).
Proof. intros Hp. cbn [replace_from]. rewrite Hp. reflexivity. Qed.

(** A text that holds no reference is left as it is. *)
Lemma replace_from_id (s : string) :
  ~ occurs tok s -> replace_from tok rep 0 s = s.
Proof.
  induction s as [|c s IH]; intros Hno; [reflexivity|].
  destruct (starts_with tok (String c s)) eqn:Hp.
  - exfalso; apply Hno, occurs_prefix, Hp.
  - rewrite replace_from_keep by exact Hp. f_equal. apply IH.
    intros Hs; apply Hno, occurs_tail, Hs.
Qed.

(** The first character of the replacement and of the token, and what
    keeps a replacement from making a new reference: the replacement's
    first character is not in the token, the token's first character is
    not in the replacement. *)
Variables (t0 r0 : ascii) (tok' rep' : string).
Hypothesis tok_eq : tok = String t0 tok'.
Hypothesis rep_eq : rep = String r0 rep'.
Hypothesis r0_fresh : mem_char r0 tok = false.
Hypothesis t0_fresh : mem_char t0 rep = false.

(** If the output starts with [w], a piece of the token, so did the
    input. *)
Lemma prefix_of_output (w : string) :
  mem_char r0 w = false ->
  forall x, starts_with w (replace_from tok rep 0 x) = true ->
            starts_with w x = true.
Proof.
  induction w as [|d w IH]; intros Hw x Hp; [reflexivity|].
  cbn [mem_char] in Hw. apply orb_false_iff in Hw as [Hd Hw].
  destruct x as [|c x]; [discriminate|].
  cbn [replace_from] in Hp.
  destruct (starts_with tok (String c x)) eqn:Hm.
  - rewrite rep_eq, append_cons in Hp.
    apply prefix_cons in Hp as [-> _].
    rewrite Ascii.eqb_refl in Hd; discriminate.
  - apply prefix_cons in Hp as [-> Hp].
    apply prefix_cons; split; [reflexivity|]. apply IH; assumption.
Qed.

Lemma no_occurrence_after_rep (u x : string) :
  mem_char t0 u = false ->
  ~ occurs tok x -> ~ occurs tok (u +:+ x).
Proof.
  induction u as [|a u IH]; intros Hu Hx; [exact Hx|].
  cbn [mem_char] in Hu. apply orb_false_iff in Hu as [Ha Hu].
  rewrite append_cons. intros Ho. apply occurs_cons in Ho as [Hp|Ho].
  - rewrite tok_eq in Hp. apply prefix_cons in Hp as [<- _].
    rewrite Ascii.eqb_refl in Ha; discriminate.
  - revert Ho. apply IH; assumption.
Qed.

(** No reference is left in the output. *)
Lemma replace_from_no_occurrence (s : string) (k : nat) :
  ~ occurs tok (replace_from tok rep k s).
Proof.
  revert k; induction s as [|c s IH]; intros k.
  - cbn [replace_from]. intros (pre & post & Heq).
    rewrite tok_eq in Heq. destruct pre; discriminate.
  - cbn [replace_from]. destruct k as [|k]; [|apply IH].
    destruct (starts_with tok (String c s)) eqn:Hm.
    + apply no_occurrence_after_rep; [exact t0_fresh|apply IH].
    + intros Ho. apply occurs_cons in Ho as [Hp|Ho]; [|exact (IH _ Ho)].
      rewrite tok_eq in Hp, Hm. apply prefix_cons in Hp as [<- Hp].
      rewrite <- tok_eq in Hp.
      assert (starts_with tok' s = true) as Hs.
      { apply prefix_of_output; [|exact Hp].
        pose proof r0_fresh as Hr. rewrite tok_eq in Hr.
        cbn [mem_char] in Hr. apply orb_false_iff in Hr as [_ Hr]. exact Hr. }
      assert (starts_with (String t0 tok') (String t0 s) = true) as Hc
        by (apply prefix_cons; split; [reflexivity|exact Hs]).
      rewrite Hc in Hm; discriminate.
Qed.

End Replace.

(** Rendering under the module's epilog is the replacement of the one
    reference token by the project name. *)
Lemma render_rst_epilog (text : string) :
  render rst_epilog text = replace_from "|project|" "CFSpy" 0 text.
Proof. reflexivity. Qed.

(** C5: the epilog defines exactly one substitution rule, from the token
    |project| to the literal text CFSpy; rendering any source text under
    it puts exactly CFSpy where a reference |project| stands, keeps every
    other character, leaves no reference in the output, and leaves a text
    without references as it is. *)
Theorem rst_epilog_substitution :
  (exists e, rst_epilog = PyStr e
             /\ substitution_table e = [("project", "CFSpy")])
  /\ reference "project" = "|project|"
  /\ render rst_epilog EmptyString = EmptyString
  /\ (forall post,
        render rst_epilog ("|project|" +:+ post) =
        "CFSpy" +:+ render rst_epilog post)
  /\ (forall c s,
        starts_with "|project|" (String c s) = false ->
        render rst_epilog (String c s) = String c (render rst_epilog s))
  /\ (forall text, ~ occurs "|project|" (render rst_epilog text))
  /\ (forall text,
        ~ occurs "|project|" text -> render rst_epilog text = text).
Proof.
  split; [eexists; split; reflexivity|].
  split; [reflexivity|]. split; [reflexivity|].
  split; [|split; [|split]].
  - intros post. rewrite !render_rst_epilog.
    apply replace_from_match; discriminate.
  - intros c s Hp. rewrite !render_rst_epilog.
    apply replace_from_keep; exact Hp.
  - intros text. rewrite render_rst_epilog.
    apply (replace_from_no_occurrence "|project|" "CFSpy"
             "|"%char "C"%char "project|" "FSpy"); reflexivity.
  - intros text Hno. rewrite render_rst_epilog.
    apply replace_from_id; exact Hno.
Qed.

(** A page that references the project name twice. *)
Lemma rst_epilog_substitution_page :
  render rst_epilog "|project|: the |project| docs, a|b" =
  "CFSpy: the CFSpy docs, a|b".
Proof.
  destruct rst_epilog_substitution as (_ & _ & _ & Href & _).
  exact (Href ": the |project| docs, a|b").
Defined.

(** ** Beyond one evaluation and one call *)




(** Replaying calls one list after another. *)
Lemma replay_app {A : Type} `{AppHandle A} (cs1 cs2 : list call) (a : A) :
  replay (cs1 ++ cs2) a = replay cs2 (replay cs1 a).
Proof. unfold replay. apply fold_left_app. Qed.

(** What a registry lists after a run of calls: what it listed before,
    then the files of the calls, kind by kind. *)
Lemma registry_replay {A : Type} `{AssetRegistry A} (cs : list call) (a : A) :
  css_files (replay cs a) = css_files a ++ logged_css cs
  /\ js_files (replay cs a) = js_files a ++ logged_js cs.
Proof.
  revert a; induction cs as [|c cs IH]; intros a.
  - cbn. rewrite !app_nil_r. split; reflexivity.
  - change (replay (c :: cs) a) with (replay cs (perform c a)).
    destruct (IH (perform c a)) as [Hc Hj]. rewrite Hc, Hj.
    destruct c as [f|f]; cbn [perform].
    + rewrite css_files_add_css_file, js_files_add_css_file.
      rewrite <- app_assoc. split; reflexivity.
    + rewrite css_files_add_js_file, js_files_add_js_file.
      rewrite <- app_assoc. split; reflexivity.
Qed.

(** X3: [setup] does not check whether the stylesheet is registered
    already: [n] calls in a row are [n] [add_css_file] calls, and a
    registry that appends lists the stylesheet [n] more times, its scripts
    unchanged. *)
Theorem setup_times_registers_each_time
  (A : Type) (HA : AppHandle A) (R : AssetRegistry A)
  (n : nat) (g : gmap string pyvalue) (a : A) :
  exists a',
    setup_times n (World g a) = Ok (PyNone, World g a')
    /\ a' = replay (replicate n (AddCssFile "assets/css/custom.css")) a
    /\ css_files a' = css_files a ++ replicate n "assets/css/custom.css"
    /\ js_files a' = js_files a.
Proof.
  revert a; induction n as [|n IH]; intros a.
  - exists a. cbn. rewrite app_nil_r. repeat split; reflexivity.
  - destruct (IH (add_css_file "assets/css/custom.css" a))
      as (a' & Hrun & Hrep & Hc & Hj).
    exists a'. split; [|split; [|split]].
    + cbn [setup_times]. unfold bind at 1. rewrite setup_run. exact Hrun.
    + exact Hrep.
    + rewrite Hc, css_files_add_css_file, <- app_assoc. reflexivity.
    + rewrite Hj. apply js_files_add_css_file.
Qed.

(** X4: whatever registrations come before and after the hook, the
    stylesheet it adds is listed after every stylesheet registered before
    it and ahead of those registered later, and stays listed; the scripts
    are those of the other calls. *)
Theorem setup_among_registrations
  (A : Type) (HA : AppHandle A) (R : AssetRegistry A)
  (g : gmap string pyvalue) (a : A) (before later : list call) :
  exists a',
    setup (World g (replay before a)) = Ok (PyNone, World g a')
    /\ css_files (replay later a') =
         css_files a ++ logged_css before
           ++ ["assets/css/custom.css"] ++ logged_css later
    /\ js_files (replay later a') =
         js_files a ++ logged_js before ++ logged_js later
    /\ "assets/css/custom.css" ∈ css_files (replay later a').
Proof.
  eexists; split; [apply setup_run|].
  destruct (registry_replay later
              (add_css_file "assets/css/custom.css" (replay before a)))
    as [Hc Hj].
  destruct (registry_replay before a) as [Hcb Hjb].
  rewrite Hc, Hj, css_files_add_css_file, js_files_add_css_file, Hcb, Hjb.
  rewrite <- !app_assoc. split; [reflexivity|]. split; [reflexivity|].
  rewrite !elem_of_app, elem_of_cons. tauto.
Qed.

(** ** Dict displays *)

Lemma assoc_get_setitem_eq (k : string) (v : pyvalue)
  (items : list (string * pyvalue)) :
  assoc_get k (dict_setitem k v items) = Some v.
Proof.
  induction items as [|[k' v'] items IH]; cbn [dict_setitem assoc_get].
  - rewrite String.eqb_refl; reflexivity.
  - destruct (String.eqb k k') eqn:E; cbn [assoc_get].
    + rewrite String.eqb_refl; reflexivity.
    + rewrite E; exact IH.
Qed.

Lemma assoc_get_setitem_ne (k k' : string) (v : pyvalue)
  (items : list (string * pyvalue)) :
  k <> k' -> assoc_get k' (dict_setitem k v items) = assoc_get k' items.
Proof.
  intros Hne. assert (String.eqb k' k = false) as Hk
    by (apply String.eqb_neq; congruence).
  induction items as [|[k1 v1] items IH]; cbn [dict_setitem assoc_get].
  - rewrite Hk; reflexivity.
  - destruct (String.eqb k k1) eqn:E; cbn [assoc_get].
    + apply String.eqb_eq in E as <-. rewrite Hk; reflexivity.
    + rewrite IH; reflexivity.
Qed.

Lemma assoc_get_app (k : string) (l1 l2 : list (string * pyvalue)) :
  assoc_get k (l1 ++ l2) =
  match assoc_get k l1 with Some v => Some v | None => assoc_get k l2 end.
Proof.
  induction l1 as [|[k' v'] l1 IH]; [reflexivity|].
  rewrite <- app_comm_cons. cbn [assoc_get].
  destruct (String.eqb k k'); [reflexivity|exact IH].
Qed.

(** Storing under a key keeps the keys there are and adds the key at the
    end when it is new. *)
Lemma keys_setitem (k : string) (v : pyvalue)
  (items : list (string * pyvalue)) :
  map fst (dict_setitem k v items) =
  if decide (k ∈ map fst items) then map fst items else map fst items ++ [k].
Proof.
  induction items as [|[k' v'] items IH]; cbn [dict_setitem map fst].
  - rewrite decide_False by apply not_elem_of_nil. reflexivity.
  - destruct (String.eqb k k') eqn:E.
    + apply String.eqb_eq in E as ->.
      rewrite decide_True by (apply elem_of_cons; left; reflexivity).
      reflexivity.
    + apply String.eqb_neq in E. cbn [map fst]. rewrite IH.
      destruct (decide (k ∈ map fst items)) as [Hin|Hout].
      * rewrite decide_True by (apply elem_of_cons; right; exact Hin).
        reflexivity.
      * rewrite decide_False; [reflexivity|].
        rewrite elem_of_cons; tauto.
Qed.

Lemma keys_setitem_NoDup (k : string) (v : pyvalue)
  (items : list (string * pyvalue)) :
  NoDup (map fst items) -> NoDup (map fst (dict_setitem k v items)).
Proof.
  intros Hnd. rewrite keys_setitem. case_decide; [exact Hnd|].
  apply NoDup_app. split; [exact Hnd|]. split.
  - intros x Hx Hk. apply list_elem_of_singleton in Hk as ->. contradiction.
  - apply NoDup_singleton.
Qed.

Lemma keys_setitem_elem (k k' : string) (v : pyvalue)
  (items : list (string * pyvalue)) :
  k' ∈ map fst (dict_setitem k v items) <-> k' = k \/ k' ∈ map fst items.
Proof.
  rewrite keys_setitem. case_decide as Hin.
  - split; [tauto|]. intros [->|Hk]; assumption.
  - rewrite elem_of_app, list_elem_of_singleton. tauto.
Qed.

(** Storing the items of a display one by one into a dict with distinct
    keys. *)
Lemma dict_display_fold (kvs acc : list (string * pyvalue)) :
  let d := fold_left (fun d kv => dict_setitem (fst kv) (snd kv) d) kvs acc in
  (NoDup (map fst acc) -> NoDup (map fst d))
  /\ (forall k, assoc_get k d =
                match assoc_get k (rev kvs) with
                | Some v => Some v
                | None => assoc_get k acc
                end)
  /\ (forall k, k ∈ map fst d <-> k ∈ map fst acc \/ k ∈ map fst kvs).
Proof.
  revert acc; induction kvs as [|[k0 v0] kvs IH]; intros acc; cbn zeta.
  - cbn. split; [tauto|]. split; [reflexivity|].
    intros k. rewrite elem_of_nil. tauto.
  - cbn [fold_left fst snd rev map].
    destruct (IH (dict_setitem k0 v0 acc)) as (Hnd & Hget & Hkeys).
    split; [|split].
    + intros Hacc. apply Hnd, keys_setitem_NoDup, Hacc.
    + intros k. rewrite Hget, assoc_get_app.
      destruct (assoc_get k (rev kvs)); [reflexivity|].
      cbn [assoc_get]. destruct (String.eqb k k0) eqn:E.
      * apply String.eqb_eq in E as ->. apply assoc_get_setitem_eq.
      * apply String.eqb_neq in E. apply assoc_get_setitem_ne; congruence.
    + intros k. rewrite Hkeys, keys_setitem_elem, elem_of_cons. tauto.
Qed.

(** X5: in a dict display the keys of the resulting dict are distinct, a
    key is present exactly when the display names it, and looking a key
    up gives the value of its last item in the display. *)
Theorem dict_display_last_item_wins (kvs : list (string * pyvalue)) :
  NoDup (dict_keys (dict_display kvs))
  /\ (forall k, dict_get k (dict_display kvs) = assoc_get k (rev kvs))
  /\ (forall k, k ∈ dict_keys (dict_display kvs) <-> k ∈ map fst kvs).
Proof.
  destruct (dict_display_fold kvs []) as (Hnd & Hget & Hkeys).
  unfold dict_display; cbn [dict_keys dict_get]. split; [|split].
  - apply Hnd, NoDup_nil_2.
  - intros k. rewrite Hget. destruct (assoc_get k (rev kvs)); reflexivity.
  - intros k. rewrite Hkeys, elem_of_nil. tauto.
Qed.

(** A display that names [a] twice keeps one [a], with the later value. *)
Lemma dict_display_last_item_wins_repeated :
  dict_get "a"
    (dict_display [("a", PyInt 1); ("b", PyInt 2); ("a", PyInt 3)])
  = Some (PyInt 3).
Proof.
  destruct (dict_display_last_item_wins
              [("a", PyInt 1); ("b", PyInt 2); ("a", PyInt 3)])
    as (_ & Hget & _).
  exact (Hget "a").
Defined.

(** Two calls of [setup] on the themed build list the stylesheet twice. *)
Lemma setup_times_registers_each_time_twice :
  exists a',
    setup_times 2 (World ∅ themed_app) = Ok (PyNone, World ∅ a')
    /\ css_files a' =
         ["styles/sphinx-book-theme.css"; "pygments.css";
          "assets/css/custom.css"; "assets/css/custom.css"].
Proof.
  destruct (setup_times_registers_each_time Sphinx _ _ 2 ∅ themed_app)
    as (a' & Hrun & _ & Hc & _).
  exists a'. split; [exact Hrun|exact Hc].
Defined.

(** The hook between a theme stylesheet and a later extension's assets. *)
Lemma setup_among_registrations_themed :
  exists a',
    setup (World ∅ (replay [AddCssFile "theme.css"] themed_app))
      = Ok (PyNone, World ∅ a')
    /\ css_files (replay [AddJsFile "mermaid.js"; AddCssFile "graphviz.css"] a')
       = ["styles/sphinx-book-theme.css"; "pygments.css"; "theme.css";
          "assets/css/custom.css"; "graphviz.css"].
Proof.
  destruct (setup_among_registrations Sphinx _ _ ∅ themed_app
              [AddCssFile "theme.css"]
              [AddJsFile "mermaid.js"; AddCssFile "graphviz.css"])
    as (a' & Hrun & Hc & _).
  exists a'. split; [exact Hrun|exact Hc].
Defined.
